(** * daptin: permission extraction, reference-id translation and relation
    resolution of [server/resource] and the mail helper [trimToLimit]

    A shallow embedding of the Go code.  Go values of type [interface{}]
    become the inductive [value]; a [map[string]interface{}] becomes a
    [gmap string value]; a run-time panic (failed type assertion, nil
    dereference, write to a nil map, slice bound) becomes the outcome
    [Panic].  The SQL store behind [dr.db] is a snapshot: a finite map
    from table names to the list of rows of each table. *)

From Stdlib Require Import ZArith String Ascii DecimalString Lia.
From stdpp Require Import gmap strings list.

#[local] Open Scope string_scope.
#[local] Open Scope list_scope.
#[local] Open Scope Z_scope.

(** ** Go values *)

(** The dynamic types that reach this code through [interface{}]:
    [nil], [int64], [float64] (a finite float is the dyadic [m * 2^e]),
    [string], [bool], a parsed [time.Time] (as an abstract instant) and the
    decoded file list [[]map[string]interface{}] of a cloud-store column. *)
#[warnings="-register-all"]
Inductive value : Type :=
  | VNil
  | VInt (z : Z)
  | VFloat (m e : Z)
  | VStr (s : string)
  | VBool (b : bool)
  | VTime (t : Z)
  | VFiles (fs : list (gmap string value)).

Abbreviation row := (gmap string value).

(** Outcome of a Go call that may panic. *)
Inductive outcome (A : Type) : Type :=
  | Ok (a : A)
  | Panic.
Arguments Ok {A} a.
Arguments Panic {A}.

#[global] Instance outcome_bind : MBind outcome :=
  fun A B f x =>
    match x with
    | Ok a => f a
    | Panic => Panic
    end.

#[global] Instance outcome_ret : MRet outcome := fun A a => Ok a.

(** [m[k]] on a Go map: the zero value [nil] when the key is absent.  A nil
    map reads like the empty map. *)
Definition index (m : row) (k : string) : value := default VNil (m !! k).

(** [x.(string)] and [x.(int64)] without the comma-ok form. *)
Definition assert_string (v : value) : outcome string :=
  match v with
  | VStr s => Ok s
  | _ => Panic
  end.

Definition assert_int64 (v : value) : outcome Z :=
  match v with
  | VInt z => Ok z
  | _ => Panic
  end.

(** [s, _ := x.(string)]: the zero value when the assertion fails. *)
Definition string_or_zero (v : value) : string :=
  match v with
  | VStr s => s
  | _ => ""
  end.

Definition is_nil (v : value) : bool :=
  match v with
  | VNil => true
  | _ => false
  end.

(** Equality of the scalar values a where-clause compares. *)
Definition value_eqb (a b : value) : bool :=
  match a, b with
  | VNil, VNil => true
  | VInt x, VInt y => Z.eqb x y
  | VFloat m e, VFloat m' e' => Z.eqb m m' && Z.eqb e e'
  | VStr s, VStr t => String.eqb s t
  | VBool x, VBool y => Bool.eqb x y
  | VTime x, VTime y => Z.eqb x y
  | _, _ => false
  end.

(** ** The parts of the Go standard library the code calls *)

Module strconv.

Definition MaxInt64 : Z := 2 ^ 63 - 1.
Definition MinInt64 : Z := - 2 ^ 63.

Definition digit (c : ascii) : option Z :=
  let n := Z.of_N (N_of_ascii c) in
  if (48 <=? n) && (n <=? 57) then Some (n - 48) else None.

(** Value of a run of decimal digits, most significant first; [None] on
    any other byte. *)
Fixpoint digits (acc : Z) (s : string) : option Z :=
  match s with
  | EmptyString => Some acc
  | String c s' =>
      match digit c with
      | Some d => digits (10 * acc + d) s'
      | None => None
      end
  end.

(** [strconv.ParseInt(s, 10, 64)]: the value and whether [err == nil].
    A syntax error gives 0; a range error gives the nearest bound. *)
Definition ParseInt (s : string) : Z * bool :=
  match s with
  | EmptyString => (0, false)
  | String c rest =>
      let neg := Ascii.eqb c "-" in
      let body := if Ascii.eqb c "+" || neg then rest else s in
      match body with
      | EmptyString => (0, false)
      | _ =>
          match digits 0 body with
          | None => (0, false)
          | Some un =>
              if negb neg && (2 ^ 63 <=? un) then (MaxInt64, false)
              else if neg && (2 ^ 63 <? un) then (MinInt64, false)
              else (if neg then - un else un, true)
          end
      end
  end.

(** [fmt.Sprintf("%v", n)] for an [int64]. *)
Definition FormatInt (z : Z) : string := NilZero.string_of_int (Z.to_int z).

End strconv.

Module strings.

Definition byte_of (n : nat) : ascii := ascii_of_nat n.

Fixpoint of_bytes (l : list nat) : string :=
  match l with
  | [] => EmptyString
  | n :: l' => String (byte_of n) (of_bytes l')
  end.

(** UTF-8 encodings of the runes for which [unicode.IsSpace] holds. *)
Definition space_runes : list string :=
  map of_bytes
    [ [9%nat]; [10%nat]; [11%nat]; [12%nat]; [13%nat]; [32%nat];
      [194; 133]%nat; [194; 160]%nat; [225; 154; 128]%nat;
      [226; 128; 128]%nat; [226; 128; 129]%nat; [226; 128; 130]%nat;
      [226; 128; 131]%nat; [226; 128; 132]%nat; [226; 128; 133]%nat;
      [226; 128; 134]%nat; [226; 128; 135]%nat; [226; 128; 136]%nat;
      [226; 128; 137]%nat; [226; 128; 138]%nat; [226; 128; 168]%nat;
      [226; 128; 169]%nat; [226; 128; 175]%nat; [226; 129; 159]%nat;
      [227; 128; 128]%nat ].

Fixpoint strip_prefix (p s : string) : option string :=
  match p, s with
  | EmptyString, _ => Some s
  | String a p', String b s' => if Ascii.eqb a b then strip_prefix p' s' else None
  | String _ _, EmptyString => None
  end.

Fixpoint strip_any (ps : list string) (s : string) : option string :=
  match ps with
  | [] => None
  | p :: ps' =>
      match strip_prefix p s with
      | Some s' => Some s'
      | None => strip_any ps' s
      end
  end.

Fixpoint trim_left (runes : list string) (fuel : nat) (s : string) : string :=
  match fuel with
  | O => s
  | S fuel' =>
      match strip_any runes s with
      | Some s' => trim_left runes fuel' s'
      | None => s
      end
  end.

Definition TrimLeftSpace (s : string) : string :=
  trim_left space_runes (String.length s) s.

Definition TrimRightSpace (s : string) : string :=
  String.rev (trim_left (map String.rev space_runes) (String.length s) (String.rev s)).

(** [strings.TrimSpace]: leading and trailing white-space runes removed. *)
Definition TrimSpace (s : string) : string := TrimRightSpace (TrimLeftSpace s).

(** [strings.Index(s, sub)]: byte offset of the first occurrence, or -1. *)
Fixpoint index_from (n : Z) (sub s : string) : Z :=
  match strip_prefix sub s with
  | Some _ => n
  | None =>
      match s with
      | EmptyString => -1
      | String _ s' => index_from (n + 1) sub s'
      end
  end.

Definition Index (s sub : string) : Z := index_from 0 sub s.

End strings.

(** ** [server/smtp]: trimToLimit *)

(** [str[:limit]] panics when [limit] is negative (or beyond the length,
    which the guard excludes). *)
Definition slice_to (str : string) (limit : Z) : outcome string :=
  if (limit <? 0) || (Z.of_nat (String.length str) <? limit) then Panic
  else Ok (substring 0 (Z.to_nat limit) str).

Definition trimToLimit (str : string) (limit : Z) : outcome string :=
  let ret := strings.TrimSpace str in
  if limit <? Z.of_nat (String.length str) then slice_to str limit
  else Ok ret.

(** ** [server/resource]: data model *)

Module auth.

(** [auth.AuthPermission] is an [int64] bit mask. *)
Record GroupPermission : Type := mkGroupPermission {
  GroupReferenceId : string;
  ObjectReferenceId : string;
  RelationReferenceId : string;
  Permission : Z
}.

(** The permission constants of package [auth] that the code names; their
    declarations are not part of the sources at hand. *)
Class Bits : Type := {
  DEFAULT_PERMISSION : Z;
  GuestPeek : Z; GuestRead : Z; GuestCreate : Z; GuestExecute : Z;
  UserRead : Z; UserCreate : Z; UserExecute : Z;
  GroupRead : Z; GroupCreate : Z; GroupExecute : Z;
  GroupCRUD : Z; GroupRefer : Z
}.

End auth.

Record PermissionInstance : Type := mkPermissionInstance {
  UserId : string;
  UserGroupId : list auth.GroupPermission;
  Permission : Z
}.

(** [var perm PermissionInstance]. *)
Definition zero_PermissionInstance : PermissionInstance :=
  mkPermissionInstance "" [] 0.

Record ForeignKeyData : Type := mkForeignKeyData {
  DataSource : string;
  Namespace : string;
  KeyName : string
}.

Record ColumnInfo : Type := mkColumnInfo {
  ColumnName : string;
  ColumnType : string;
  IsForeignKey : bool;
  ForeignKey : ForeignKeyData
}.

(** What the code asks of a table model ([dr.model], [crud.model]). *)
Record TableModel : Type := mkTableModel {
  GetName : string;
  GetColumnMap : gmap string ColumnInfo;
  HasMany : string -> bool;
  HasColumn : string -> bool;
  GetDefaultPermission : Z
}.

Record AssetFolder : Type := mkAssetFolder {
  LocalSyncPath : string
}.

(** A [*DbResource]: the store [dr.db] (table name to rows), the registry
    [dr.Cruds] (each entry reduced to its [model]), the resource's own
    [dr.model], [dr.TableInfo().TableName] and [dr.AssetFolderCache]. *)
Record DbResource : Type := mkDbResource {
  db : gmap string (list row);
  Cruds : gmap string TableModel;
  model : TableModel;
  TableName : string;
  AssetFolderCache : gmap string (gmap string AssetFolder)
}.

Definition with_db (dr : DbResource) (d : gmap string (list row)) : DbResource :=
  mkDbResource d (Cruds dr) (model dr) (TableName dr) (AssetFolderCache dr).

(** Capabilities of other packages: the time parsers of [fieldtypes]
    ([None] is a non-nil [err]), [json.Unmarshal] into a
    [[]map[string]interface{}], [ioutil.ReadFile] and base64 encoding. *)
Class Externals : Type := {
  GetTime : string -> option Z;
  GetDateTime : string -> option Z;
  json_Unmarshal : string -> option (list row);
  ReadFile : string -> option string;
  EncodeToString : string -> string
}.

Definition USER_ACCOUNT_ID_COLUMN : string := "user_account_id".
Definition USER_ACCOUNT_TABLE_NAME : string := "user_account".

(** ** The store: [dr.db.Queryx], [QueryRowx], [Scan], [Exec] *)

(** [col = ?] in a where- or on-clause: never true on NULL. *)
Definition sql_eqb (cell arg : value) : bool :=
  negb (is_nil cell) && value_eqb cell arg.

Definition matches (conds : list (string * value)) (r : row) : bool :=
  forallb (fun cv => sql_eqb (index r cv.1) cv.2) conds.

(** [select ... from T where c1 = v1 and ...]: [None] is the query error of
    an unknown table. *)
Definition Queryx (d : gmap string (list row)) (T : string)
    (conds : list (string * value)) : option (list row) :=
  List.filter (matches conds) <$> d !! T.

(** [QueryRowx]: the first row; [None] is the error that [Scan] or
    [MapScan] reports (query error or [sql.ErrNoRows]). *)
Definition QueryRowx (d : gmap string (list row)) (T : string)
    (conds : list (string * value)) : option row :=
  rows ← Queryx d T conds; head rows.

(** [Scan] into a [*string]: NULL is an error; integers and booleans are
    converted.  Cells of other dynamic types are taken as errors. *)
Definition scan_string (v : value) : option string :=
  match v with
  | VStr s => Some s
  | VInt z => Some (strconv.FormatInt z)
  | VBool b => Some (if b then "true" else "false")
  | _ => None
  end.

(** [Scan] into an [*int64]. *)
Definition scan_int64 (v : value) : option Z :=
  match v with
  | VInt z => Some z
  | VStr s => let r := strconv.ParseInt s in if r.2 then Some r.1 else None
  | _ => None
  end.

(** [Scan] into a [*uint64]. *)
Definition scan_uint64 (v : value) : option Z :=
  z ← scan_int64 v; if 0 <=? z then Some z else None.

(** [MapScan] of the selected columns. *)
Definition select_columns (cols : list string) (r : row) : row :=
  list_to_map (map (fun c => (c, index r c)) cols).

(** [update T set c1 = v1, ... where cond]; an unknown table is an error,
    which every caller logs and ignores. *)
Definition Exec_update (d : gmap string (list row)) (T : string)
    (sets : list (string * value)) (cond : row -> bool) : gmap string (list row) :=
  match d !! T with
  | None => d
  | Some rows =>
      <[T := map (fun r => if cond r
                          then foldl (fun acc cv => <[cv.1 := cv.2]> acc) r sets
                          else r) rows]> d
  end.

(** [insert into T (cols) values (vals)]. *)
Definition Exec_insert (d : gmap string (list row)) (T : string) (r : row)
    : gmap string (list row) :=
  match d !! T with
  | None => d
  | Some rows => <[T := rows ++ [r]]> d
  end.

(** Order of the cells an [order by] compares. *)
Definition value_leb (a b : value) : bool :=
  match a, b with
  | VNil, _ => true
  | _, VNil => false
  | VInt x, VInt y => x <=? y
  | VTime x, VTime y => x <=? y
  | VStr s, VStr t => String.leb s t
  | _, _ => true
  end.

Fixpoint insert_by (col : string) (r : row) (l : list row) : list row :=
  match l with
  | [] => [r]
  | x :: l' =>
      if value_leb (index r col) (index x col) then r :: l
      else x :: insert_by col r l'
  end.

Definition order_by (col : string) (l : list row) : list row :=
  foldr (insert_by col) [] l.

(** ** Reference-id translation *)

(** Lookup an integer id and return the reference id; [None] is [err]. *)
Definition GetIdToReferenceId (dr : DbResource) (typeName : string) (id : Z)
    : option string :=
  r ← QueryRowx (db dr) typeName [("id", VInt id)];
  scan_string (index r "reference_id").

(** Lookup a reference id and return the integer id; [None] is [err]. *)
Definition GetReferenceIdToId (dr : DbResource) (typeName referenceId : string)
    : option Z :=
  r ← QueryRowx (db dr) typeName [("reference_id", VStr referenceId)];
  scan_int64 (index r "id").

(** ** Relation resolution *)

(** [RowsToMap]: every scanned row is tagged with the type name. *)
Definition RowsToMap (rows : list row) (typeName : string) : list row :=
  map (fun dbRow => <["__type" := VStr typeName]> dbRow) rows.

(** [includedRelationMap != nil && (includedRelationMap[k] || includedRelationMap["*"])]. *)
Definition is_included (includedRelationMap : option (gmap string bool)) (k : string)
    : bool :=
  match includedRelationMap with
  | None => false
  | Some m => default false (m !! k) || default false (m !! "*")
  end.

(** [val == "" || val == nil]. *)
Definition is_blank (val : value) : bool :=
  match val with
  | VNil => true
  | VStr s => String.eqb s ""
  | _ => false
  end.

(** All-or-panic traversal of a slice. *)
Fixpoint mapM {A B : Type} (f : A -> outcome B) (l : list A) : outcome (list B) :=
  match l with
  | [] => Ok []
  | a :: l' => b ← f a; bs ← mapM f l'; Ok (b :: bs)
  end.

Fixpoint foldM {A S : Type} (f : S -> A -> outcome S) (l : list A) (s : S) : outcome S :=
  match l with
  | [] => Ok s
  | a :: l' => s' ← f s a; foldM f l' s'
  end.

Section Resolver.

Context `{Externals}.

(** [GetFileFromLocalCloudStore]: [None] is the [nil] slice returned with
    the "not a synced folder" error. *)
Definition GetFileFromLocalCloudStore (dr : DbResource) (tableName columnName : string)
    (filesList : list row) : outcome (option (list row)) :=
  match (AssetFolderCache dr !! tableName) ≫= (fun m => m !! columnName) with
  | None => Ok None
  | Some assetFolder =>
      resp ← foldM (fun resp fileItem =>
                let newFileItem := fileItem in
                filePath ← assert_string (index fileItem "src");
                match ReadFile (LocalSyncPath assetFolder +:+ "/" +:+ filePath) with
                | None => Ok resp
                | Some bytes =>
                    let newFileItem := <["reference_id" := index fileItem "name"]> newFileItem in
                    let newFileItem := <["contents" := VStr (EncodeToString bytes)]> newFileItem in
                    Ok (resp ++ [newFileItem])
                end) filesList [];
      Ok (Some resp)
  end.

(** The opportunistic time parsing of a ["datetime"] column; [InfoErr]
    answers whether the error it logs is non-nil. *)
Definition parse_datetime (columnInfo : ColumnInfo) (key : string) (val : value)
    (r : row) : row :=
  if negb (is_nil val) && String.eqb (ColumnType columnInfo) "datetime" then
    match val with
    | VStr stringVal =>
        match GetTime stringVal with
        | Some parsedValue => <[key := VTime parsedValue]> r
        | None =>
            match GetDateTime stringVal with
            | Some parsedValue => <[key := VTime parsedValue]> r
            | None => <[key := VNil]> r
            end
        end
    | _ => r
    end
  else r.

(** One iteration of [for key, val := range row] in [ResultToArrayOfMap].
    The state is the row being rewritten and its [localInclude];
    [getIdToObject] is [dr.GetIdToObject] and [objMap] the request cache,
    which the function creates empty and never writes. *)
Definition resolve_column (dr : DbResource)
    (getIdToObject : string -> Z -> outcome (option row))
    (columnMap : gmap string ColumnInfo)
    (includedRelationMap : option (gmap string bool))
    (objMap : gmap string row)
    (st : row * list row) (kv : string * value) : outcome (row * list row) :=
  let '(r, localInclude) := st in
  let '(key, val) := kv in
  match columnMap !! key with
  | None => Ok (r, localInclude)
  | Some columnInfo =>
      let r := parse_datetime columnInfo key val r in
      if negb (IsForeignKey columnInfo) then Ok (r, localInclude)
      else if is_blank val then Ok (r, localInclude)
      else
        let namespace := Namespace (ForeignKey columnInfo) in
        if String.eqb (DataSource (ForeignKey columnInfo)) "self" then
          referenceIdInt ←
            match val with
            | VInt z => Ok z
            | _ => stringIntId ← assert_string val;
                   Ok (strconv.ParseInt stringIntId).1
            end;
          let cache_key := namespace +:+ "-" +:+ strconv.FormatInt referenceIdInt in
          match objMap !! cache_key with
          | Some objCached => Ok (r, localInclude ++ [objCached])
          | None =>
              match GetIdToReferenceId dr namespace referenceIdInt with
              | None => Ok (r, localInclude)
              | Some refId =>
                  let r := <[key := VStr refId]> r in
                  if is_included includedRelationMap namespace then
                    obj ← getIdToObject namespace referenceIdInt;
                    match obj with
                    | None => Panic
                    | Some obj =>
                        let obj := <["__type" := VStr namespace]> obj in
                        Ok (r, localInclude ++ [obj])
                    end
                  else Ok (r, localInclude)
              end
          end
        else if String.eqb (DataSource (ForeignKey columnInfo)) "cloud_store" then
          referenceStorageInformation ← assert_string val;
          match json_Unmarshal referenceStorageInformation with
          | None => Ok (r, localInclude)
          | Some foreignFilesList =>
              foreignFilesList ←
                mapM (fun file => name ← assert_string (index file "name");
                                  Ok (<["src" := VStr name]> file)) foreignFilesList;
              let r := <[key := VFiles foreignFilesList]> r in
              if is_included includedRelationMap (ColumnName columnInfo) then
                resolved ← GetFileFromLocalCloudStore dr (TableName dr)
                             (ColumnName columnInfo) foreignFilesList;
                let resolvedFilesList :=
                  map (fun file => <["__type" := VStr (ColumnType columnInfo)]> file)
                      (default [] resolved) in
                Ok (<[key := VFiles resolvedFilesList]> r,
                    localInclude ++ resolvedFilesList)
              else Ok (r, localInclude)
          end
        else Ok (r, localInclude)
  end.

(** The body of the outer loop for one row.  Go ranges over the map in an
    unspecified order, here the order of [map_to_list]; an iteration
    rewrites no other key than its own, so only the order of
    [localInclude] depends on it. *)
Definition resolve_row (dr : DbResource)
    (getIdToObject : string -> Z -> outcome (option row))
    (columnMap : gmap string ColumnInfo)
    (includedRelationMap : option (gmap string bool))
    (objMap : gmap string row) (r : row) : outcome (row * list row) :=
  foldM (resolve_column dr getIdToObject columnMap includedRelationMap objMap)
        (map_to_list r) (r, []).

Definition ResultToArrayOfMapWith (dr : DbResource)
    (getIdToObject : string -> Z -> outcome (option row))
    (rows : list row) (columnMap : gmap string ColumnInfo)
    (includedRelationMap : option (gmap string bool))
    : outcome (list row * list (list row)) :=
  let responseArray := RowsToMap rows (GetName (model dr)) in
  let objMap : gmap string row := ∅ in
  resolved ← mapM (resolve_row dr getIdToObject columnMap includedRelationMap objMap)
                  responseArray;
  Ok (map fst resolved, map snd resolved).

(** [dr.Cruds[typeName].model.GetColumnMap()]: a nil dereference when the
    type is not registered. *)
Definition crud_model (dr : DbResource) (typeName : string) : outcome TableModel :=
  match Cruds dr !! typeName with
  | Some m => Ok m
  | None => Panic
  end.

(** [GetIdToObject]: [None] is the [nil] map (no row, or a query error).
    It resolves the row with a nil include map, under which the resolver
    does not fetch objects; the callback it is given is never called. *)
Definition GetIdToObject (dr : DbResource) (typeName : string) (id : Z)
    : outcome (option row) :=
  match Queryx (db dr) typeName [("id", VInt id)] with
  | None => Ok None
  | Some rows =>
      m ← crud_model dr typeName;
      res ← ResultToArrayOfMapWith dr (fun _ _ => Panic) rows (GetColumnMap m) None;
      Ok (head res.1)
  end.

(** [GetReferenceIdToObject]. *)
Definition GetReferenceIdToObject (dr : DbResource) (typeName referenceId : string)
    : outcome (option row) :=
  match Queryx (db dr) typeName [("reference_id", VStr referenceId)] with
  | None => Ok None
  | Some rows =>
      m ← crud_model dr typeName;
      res ← ResultToArrayOfMapWith dr (fun _ _ => Panic) rows (GetColumnMap m) None;
      Ok (head res.1)
  end.

(** [ResultToArrayOfMap]: the rows and one include list per row. *)
Definition ResultToArrayOfMap (dr : DbResource) (rows : list row)
    (columnMap : gmap string ColumnInfo)
    (includedRelationMap : option (gmap string bool))
    : outcome (list row * list (list row)) :=
  ResultToArrayOfMapWith dr (GetIdToObject dr) rows columnMap includedRelationMap.

End Resolver.

(** ** Group memberships and permission instances *)

(** [StructScan] into an [auth.GroupPermission]: the columns
    [groupreferenceid], [relationreferenceid], [permission] are assigned in
    order and the scan stops at the first cell that does not convert. *)
Definition scan_GroupPermission (groupreferenceid relationreferenceid permission : value)
    : auth.GroupPermission :=
  match scan_string groupreferenceid with
  | None => auth.mkGroupPermission "" "" "" 0
  | Some g =>
      match scan_string relationreferenceid with
      | None => auth.mkGroupPermission g "" "" 0
      | Some rel =>
          match scan_int64 permission with
          | None => auth.mkGroupPermission g "" rel 0
          | Some p => auth.mkGroupPermission g "" rel p
          end
      end
  end.

Definition with_ObjectReferenceId (g : auth.GroupPermission) (refId : string)
    : auth.GroupPermission :=
  auth.mkGroupPermission (auth.GroupReferenceId g) refId
    (auth.RelationReferenceId g) (auth.Permission g).

(** The generated association table of a type with [usergroup]. *)
Definition join_table_name (objType : string) : string :=
  objType +:+ "_" +:+ objType +:+ "_id_has_usergroup_usergroup_id".

Definition inner_join (left right : list row) (on : row -> row -> bool)
    : list (row * row) :=
  flat_map (fun l => map (fun r => (l, r)) (List.filter (on l) right)) left.

Section Permissions.

Context `{Externals} `{auth.Bits}.

(** [GetObjectUserGroupsByWhere]: the memberships of the objects of
    [objType] with [colName = colvalue], through the association table. *)
Definition GetObjectUserGroupsByWhere (dr : DbResource) (objType colName : string)
    (colvalue : value) : list auth.GroupPermission :=
  match db dr !! objType, db dr !! join_table_name objType, db dr !! "usergroup" with
  | Some subjects, Some joins, Some groups =>
      let subjects := List.filter (fun s => sql_eqb (index s colName) colvalue) subjects in
      let sj := inner_join subjects joins
                  (fun s j => sql_eqb (index j (objType +:+ "_id")) (index s "id")) in
      flat_map (fun '(_, j) =>
                  map (fun ug => scan_GroupPermission (index ug "reference_id")
                                   (index j "reference_id") (index j "permission"))
                      (List.filter (fun ug => sql_eqb (index j "usergroup_id") (index ug "id"))
                                   groups)) sj
  | _, _, _ => []
  end.

Definition GetObjectGroupsByObjectId (dr : DbResource) (objType : string) (objectId : Z)
    : outcome (list auth.GroupPermission) :=
  let refId := GetIdToReferenceId dr objType objectId in
  if String.eqb objType "usergroup" then
    match refId with
    | None => Ok []
    | Some refId =>
        m ← crud_model dr "usergroup";
        Ok [auth.mkGroupPermission refId refId refId (GetDefaultPermission m)]
    end
  else
    let refId := default "" refId in
    match db dr !! "usergroup", db dr !! join_table_name objType with
    | Some groups, Some joins =>
        let gj := inner_join groups joins
                    (fun ug uug => sql_eqb (index uug "usergroup_id") (index ug "id")) in
        let gj := List.filter
                    (fun p => sql_eqb (index p.2 (objType +:+ "_id")) (VInt objectId)) gj in
        Ok (map (fun p => with_ObjectReferenceId
                            (scan_GroupPermission (index p.1 "reference_id")
                               (index p.2 "reference_id") (index p.2 "permission"))
                            refId) gj)
    | _, _ => Ok []
    end.

(** The owner of the scanned permission row: [m["user_account_id"].(int64)]
    translated to a reference id when the cell is not NULL. *)
Definition scanned_owner (dr : DbResource) (m : row) : outcome string :=
  if negb (is_nil (index m USER_ACCOUNT_ID_COLUMN)) then
    uid ← assert_int64 (index m USER_ACCOUNT_ID_COLUMN);
    Ok (default "" (GetIdToReferenceId dr USER_ACCOUNT_TABLE_NAME uid))
  else Ok "".

Definition GetObjectPermissionByReferenceId (dr : DbResource)
    (objectType referenceId : string) : outcome PermissionInstance :=
  let cols := if String.eqb objectType "usergroup" then ["permission"; "id"]
              else [USER_ACCOUNT_ID_COLUMN; "permission"; "id"] in
  let resultObject : row :=
    match QueryRowx (db dr) objectType [("reference_id", VStr referenceId)] with
    | Some r => select_columns cols r
    | None => ∅
    end in
  user ← scanned_owner dr resultObject;
  match index resultObject "id" with
  | VInt i =>
      groups ← GetObjectGroupsByObjectId dr objectType i;
      p ← assert_int64 (index resultObject "permission");
      Ok (mkPermissionInstance user groups p)
  | _ => Ok (mkPermissionInstance user [] 0)
  end.

Definition GetObjectPermissionByWhereClause (dr : DbResource)
    (objectType colName colValue : string) : outcome PermissionInstance :=
  match QueryRowx (db dr) objectType [(colName, VStr colValue)] with
  | None => Ok zero_PermissionInstance
  | Some r =>
      let m := select_columns [USER_ACCOUNT_ID_COLUMN; "permission"; "id"] r in
      user ← scanned_owner dr m;
      id ← assert_int64 (index m "id");
      groups ← GetObjectGroupsByObjectId dr objectType id;
      p ← assert_int64 (index m "permission");
      Ok (mkPermissionInstance user groups p)
  end.

Definition has_bits (p mask : Z) : bool := Z.land p mask =? mask.

(** Modelled from the spec: [PermissionInstance.CanExecute], whose source
    is not at hand.  Section 3 of the specification: the capability is
    granted by the guest mask, or by the owner mask when the caller is the
    owner, or by the mask of a membership of the object in one of the
    caller's groups. *)
Definition CanExecute (p : PermissionInstance) (userId : string)
    (usergroupId : list auth.GroupPermission) : bool :=
  has_bits (Permission p) auth.GuestExecute
  || (String.eqb userId (UserId p) && has_bits (Permission p) auth.UserExecute)
  || existsb (fun g =>
        existsb (fun u => String.eqb (auth.GroupReferenceId u) (auth.GroupReferenceId g))
                usergroupId
        && has_bits (auth.Permission g) auth.GroupExecute) (UserGroupId p).

Definition IsUserActionAllowed (dr : DbResource) (userReferenceId : string)
    (userGroups : list auth.GroupPermission) (typeName actionName : string)
    : outcome bool :=
  permission ← GetObjectPermissionByWhereClause dr "world" "table_name" typeName;
  actionPermission ← GetObjectPermissionByWhereClause dr "action" "action_name" actionName;
  let canExecuteOnType := CanExecute permission userReferenceId userGroups in
  let canExecuteAction := CanExecute actionPermission userReferenceId userGroups in
  Ok (canExecuteOnType && canExecuteAction).

(** [int64(f64)]: truncation toward zero of the dyadic [m * 2^e]. *)
Definition int64_of_float (m e : Z) : Z :=
  if 0 <=? e then m * 2 ^ e else Z.quot m (2 ^ (- e)).

Definition GetRowPermission (dr : DbResource) (r : row) : outcome PermissionInstance :=
  let refId := match r !! "reference_id" with
               | Some v => v
               | None => index r "id"
               end in
  rowType ← assert_string (index r "__type");
  owner ←
    (if negb (String.eqb rowType "usergroup") then
       if negb (is_nil (index r USER_ACCOUNT_ID_COLUMN)) then
         Ok (r, string_or_zero (index r USER_ACCOUNT_ID_COLUMN))
       else
         ref ← assert_string refId;
         fetched ← GetReferenceIdToObject dr rowType ref;
         let r := default ∅ fetched in
         Ok (r, string_or_zero (index r USER_ACCOUNT_ID_COLUMN))
     else Ok (r, ""));
  let r := owner.1 in
  let loc := strings.Index rowType "_has_" in
  hasMany ← (if loc =? -1 then m ← crud_model dr rowType; Ok (HasMany m "usergroup")
             else Ok false);
  groups ←
    (if (hasMany : bool) then
       ref ← assert_string refId;
       Ok (GetObjectUserGroupsByWhere dr rowType "reference_id" (VStr ref))
     else if String.eqb rowType "usergroup" then
       let originalGroupId := index r "reference_id" in
       originalGroupIdStr ← assert_string refId;
       originalGroupIdStr ←
         (if negb (is_nil originalGroupId) then assert_string originalGroupId
          else Ok originalGroupIdStr);
       ref ← assert_string refId;
       m ← crud_model dr "usergroup";
       Ok [auth.mkGroupPermission originalGroupIdStr ref ref (GetDefaultPermission m)]
     else Ok []);
  let rowPermission := index r "permission" in
  p ←
    (if negb (is_nil rowPermission) then
       match rowPermission with
       | VInt i64 => Ok i64
       | VFloat m e => Ok (int64_of_float m e)
       | _ => s ← assert_string rowPermission; Ok (strconv.ParseInt s).1
       end
     else
       ref ← assert_string refId;
       pe ← GetObjectPermissionByReferenceId dr rowType ref;
       Ok (Permission pe));
  Ok (mkPermissionInstance owner.2 groups p).

End Permissions.

(** ** Administrator bootstrap *)

Definition USER_GROUP_JOIN_TABLE : string :=
  "user_account_user_account_id_has_usergroup_usergroup_id".

(** [GetUserIdByUsergroupId]: the reference id of the user of the oldest
    membership row of the group, through a left join with the user table;
    ["" ] when there is no row or the cell does not scan (a membership row
    without a user row yields NULL). *)
Definition GetUserIdByUsergroupId (dr : DbResource) (usergroupId : Z) : string :=
  match db dr !! USER_GROUP_JOIN_TABLE, db dr !! "user_account" with
  | Some uus, Some us =>
      let uus := order_by "created_at"
                   (List.filter (fun uu => sql_eqb (index uu "usergroup_id") (VInt usergroupId))
                                uus) in
      let cells :=
        flat_map (fun uu =>
                    match List.filter (fun u => sql_eqb (index uu "user_account_id") (index u "id"))
                                      us with
                    | [] => [VNil]
                    | l => map (fun u => index u "reference_id") l
                    end) uus in
      match cells with
      | c :: _ => default "" (scan_string c)
      | [] => ""
      end
  | _, _ => ""
  end.

(** [UserGroupNameToId]: the id and 0 with the error the caller drops. *)
Definition UserGroupNameToId (dr : DbResource) (groupName : string) : Z :=
  match QueryRowx (db dr) "usergroup" [("name", VStr groupName)] with
  | Some r => default 0 (scan_uint64 (index r "id"))
  | None => 0
  end.

(** Modelled from the spec: [GetAdminReferenceId], whose source is not at
    hand.  Section 3 of the specification: an administrator exists when a
    user holds membership in the distinguished "administrators" group; the
    group is found by name, as [BecomeAdmin] finds it. *)
Definition GetAdminReferenceId (dr : DbResource) : string :=
  GetUserIdByUsergroupId dr (UserGroupNameToId dr "administrators").

Definition CanBecomeAdmin (dr : DbResource) : bool :=
  let adminRefId := GetAdminReferenceId dr in
  if String.eqb adminRefId "" then true else false.

(** [table_name like '%_audit']: ["audit"] after at least one character. *)
Definition like_audit (v : value) : bool :=
  match v with
  | VStr s =>
      let n := String.length s in
      (6 <=? n)%nat && String.eqb (substring (n - 5) 5 s) "audit"
  | _ => false
  end.

Definition not_like_audit (v : value) : bool :=
  match v with
  | VStr s => negb (like_audit v)
  | _ => false
  end.

Section Bootstrap.

Context `{auth.Bits}.

(** The body of [for _, crud := range dbResource.Cruds]. *)
Definition own_table (userId : Z) (crud : TableModel) (d : gmap string (list row))
    : gmap string (list row) :=
  if String.eqb (GetName crud) USER_GROUP_JOIN_TABLE then d
  else if HasColumn crud USER_ACCOUNT_ID_COLUMN then
    Exec_update d (GetName crud)
      [(USER_ACCOUNT_ID_COLUMN, VInt userId); ("permission", VInt auth.DEFAULT_PERMISSION)]
      (fun _ => true)
  else d.

(** [BecomeAdmin(userId)]; [reference_id] is the value [uuid.NewV4()]
    draws.  Returns the result and the resource over the updated store. *)
Definition BecomeAdmin (dr : DbResource) (userId : Z) (reference_id : string)
    : bool * DbResource :=
  if negb (CanBecomeAdmin dr) then (false, dr)
  else
    let d := foldr (own_table userId) (db dr) (map snd (map_to_list (Cruds dr))) in
    let adminUsergroupId := UserGroupNameToId (with_db dr d) "administrators" in
    let d := Exec_insert d USER_GROUP_JOIN_TABLE
               (list_to_map
                  [(USER_ACCOUNT_ID_COLUMN, VInt userId);
                   ("usergroup_id", VInt adminUsergroupId);
                   ("permission", VInt auth.DEFAULT_PERMISSION);
                   ("reference_id", VStr reference_id)]) in
    let d := Exec_update d "world"
               [("permission", VInt auth.DEFAULT_PERMISSION);
                ("default_permission", VInt auth.DEFAULT_PERMISSION)]
               (fun r => not_like_audit (index r "table_name")) in
    let d := Exec_update d "world"
               [("permission",
                 VInt (Z.lor (Z.lor auth.GuestCreate auth.UserCreate) auth.GroupCreate));
                ("default_permission",
                 VInt (Z.lor (Z.lor auth.GuestRead auth.UserRead) auth.GroupRead))]
               (fun r => like_audit (index r "table_name")) in
    let d := Exec_update d "action"
               [("permission",
                 VInt (Z.lor (Z.lor (Z.lor (Z.lor auth.UserRead auth.UserExecute)
                                auth.GroupCRUD) auth.GroupExecute) auth.GroupRefer))]
               (fun _ => true) in
    let d := Exec_update d "action"
               [("permission",
                 VInt (Z.lor (Z.lor (Z.lor (Z.lor (Z.lor auth.GuestPeek auth.GuestExecute)
                                auth.UserRead) auth.UserExecute) auth.GroupRead)
                         auth.GroupExecute))]
               (fun r => sql_eqb (index r "action_name") (VStr "signin")) in
    (true, with_db dr d).

(** A history of calls on one dataset. *)
Inductive call : Type :=
  | call_CanBecomeAdmin
  | call_BecomeAdmin (userId : Z) (reference_id : string).

Fixpoint run (dr : DbResource) (calls : list call) : list (call * bool) * DbResource :=
  match calls with
  | [] => ([], dr)
  | call_CanBecomeAdmin :: rest =>
      let res := run dr rest in
      ((call_CanBecomeAdmin, CanBecomeAdmin dr) :: res.1, res.2)
  | call_BecomeAdmin userId reference_id :: rest =>
      let step := BecomeAdmin dr userId reference_id in
      let res := run step.2 rest in
      ((call_BecomeAdmin userId reference_id, step.1) :: res.1, res.2)
  end.

End Bootstrap.

(** ** Schema invariants of the store

    The table declarations are not part of the sources at hand; the
    properties below state what the specification's data model says of
    them: [id] is the integer primary key and every reference id is a
    string, unique within its table. *)

Fixpoint distinct (l : list value) : bool :=
  match l with
  | [] => true
  | x :: l' => negb (existsb (value_eqb x) l') && distinct l'
  end.

Definition is_int (v : value) : bool :=
  match v with
  | VInt _ => true
  | _ => false
  end.

Definition is_string (v : value) : bool :=
  match v with
  | VStr _ => true
  | _ => false
  end.

Definition keyed_table (rows : list row) : bool :=
  forallb (fun r => is_int (index r "id") && is_string (index r "reference_id")) rows
  && distinct (map (fun r => index r "id") rows)
  && distinct (map (fun r => index r "reference_id") rows).

(** ** Cells the resolver can read

    The dynamic types the type assertions of [ResultToArrayOfMap] accept
    in a foreign-key cell that is not blank: an [int64] or a string for
    the data source ["self"]; for ["cloud_store"] a string which, when it
    decodes, decodes to descriptors with a string ["name"]. *)

Section Typing.

Context `{Externals}.

Definition cell_ok (columnInfo : ColumnInfo) (val : value) : bool :=
  if negb (IsForeignKey columnInfo) then true
  else if is_blank val then true
  else if String.eqb (DataSource (ForeignKey columnInfo)) "self" then
    is_int val || is_string val
  else if String.eqb (DataSource (ForeignKey columnInfo)) "cloud_store" then
    match val with
    | VStr s =>
        match json_Unmarshal s with
        | None => true
        | Some files => forallb (fun file => is_string (index file "name")) files
        end
    | _ => false
    end
  else true.

Definition entry_ok (columnMap : gmap string ColumnInfo) (kv : string * value) : bool :=
  match columnMap !! kv.1 with
  | None => true
  | Some columnInfo => cell_ok columnInfo kv.2
  end.

(** A scanned row, once tagged with its type name. *)
Definition row_ok (columnMap : gmap string ColumnInfo) (typeName : string) (r : row)
    : bool :=
  forallb (entry_ok columnMap) (map_to_list (<["__type" := VStr typeName]> r)).

(** Every table of the store is registered and holds readable rows. *)
Definition store_ok (dr : DbResource) : bool :=
  forallb (fun tr : string * list row =>
             match Cruds dr !! tr.1 with
             | None => false
             | Some m => forallb (row_ok (GetColumnMap m) (GetName (model dr))) tr.2
             end)
          (map_to_list (db dr)).

End Typing.

(** ** Key columns

    Two versions of a table agree on the key columns when they have the
    same rows up to cells other than [id], [reference_id] and [name]. *)




(** ** A small dataset for the examples *)

Module sample.

(** The bit layout used in the examples: seven capability bits per tier
    (peek, read, create, update, delete, execute, refer), guest tier lowest. *)
Definition bits : auth.Bits := {|
  auth.DEFAULT_PERMISSION := 2097027;
  auth.GuestPeek := 1; auth.GuestRead := 2; auth.GuestCreate := 4; auth.GuestExecute := 32;
  auth.UserRead := 256; auth.UserCreate := 512; auth.UserExecute := 4096;
  auth.GroupRead := 32768; auth.GroupCreate := 65536; auth.GroupExecute := 524288;
  auth.GroupCRUD := 507904; auth.GroupRefer := 1048576
|}.

(** No time layout, JSON text or file is readable. *)
Definition ext : Externals := {|
  GetTime := fun _ => None;
  GetDateTime := fun _ => None;
  json_Unmarshal := fun _ => None;
  ReadFile := fun _ => None;
  EncodeToString := fun s => s
|}.

Definition fk_self (name namespace : string) : ColumnInfo :=
  mkColumnInfo name "alias" true (mkForeignKeyData "self" namespace "").

Definition plain (name type : string) : ColumnInfo :=
  mkColumnInfo name type false (mkForeignKeyData "" "" "").

Definition table_model (name : string) (cols : list ColumnInfo) (many : list string)
    : TableModel :=
  mkTableModel name
    (list_to_map (map (fun c => (ColumnName c, c)) cols))
    (fun t => existsb (String.eqb t) many)
    (fun c => existsb (fun ci => String.eqb c (ColumnName ci)) cols)
    2097027.

Definition post_model : TableModel :=
  table_model "post"
    [plain "id" "id"; plain "reference_id" "alias"; plain "title" "label";
     plain "permission" "value"; fk_self "author_id" "user_account";
     fk_self USER_ACCOUNT_ID_COLUMN "user_account"]
    ["usergroup"].

Definition user_model : TableModel :=
  table_model "user_account"
    [plain "id" "id"; plain "reference_id" "alias"; plain "email" "email";
     plain "permission" "value"; fk_self USER_ACCOUNT_ID_COLUMN "user_account"]
    ["usergroup"].

Definition usergroup_model : TableModel :=
  table_model "usergroup"
    [plain "id" "id"; plain "reference_id" "alias"; plain "name" "label";
     plain "permission" "value"; fk_self USER_ACCOUNT_ID_COLUMN "user_account"]
    [].

Definition world_model : TableModel :=
  table_model "world"
    [plain "id" "id"; plain "reference_id" "alias"; plain "table_name" "name";
     plain "permission" "value"; plain "default_permission" "value";
     fk_self USER_ACCOUNT_ID_COLUMN "user_account"]
    ["usergroup"].

Definition action_model : TableModel :=
  table_model "action"
    [plain "id" "id"; plain "reference_id" "alias"; plain "action_name" "label";
     plain "permission" "value"; fk_self USER_ACCOUNT_ID_COLUMN "user_account"]
    ["usergroup"].

Definition mk_row (cells : list (string * value)) : row := list_to_map cells.

Definition users : list row :=
  [mk_row [("id", VInt 1); ("reference_id", VStr "u-1"); ("email", VStr "a@x.org");
           ("permission", VInt 0)];
   mk_row [("id", VInt 2); ("reference_id", VStr "u-2"); ("email", VStr "b@x.org");
           ("permission", VInt 0)]].

Definition groups : list row :=
  [mk_row [("id", VInt 1); ("reference_id", VStr "g-1"); ("name", VStr "guests");
           ("permission", VInt 0)];
   mk_row [("id", VInt 2); ("reference_id", VStr "g-2"); ("name", VStr "administrators");
           ("permission", VInt 0)]].

Definition worlds : list row :=
  [mk_row [("id", VInt 1); ("reference_id", VStr "w-1"); ("table_name", VStr "post");
           ("permission", VInt 32); ("default_permission", VInt 0)];
   mk_row [("id", VInt 2); ("reference_id", VStr "w-2"); ("table_name", VStr "post_audit");
           ("permission", VInt 0); ("default_permission", VInt 0)]].

Definition actions : list row :=
  [mk_row [("id", VInt 1); ("reference_id", VStr "a-1"); ("action_name", VStr "publish");
           ("permission", VInt 4096); (USER_ACCOUNT_ID_COLUMN, VInt 1)];
   mk_row [("id", VInt 2); ("reference_id", VStr "a-2"); ("action_name", VStr "signin");
           ("permission", VInt 32)]].

Definition posts : list row :=
  [mk_row [("id", VInt 7); ("reference_id", VStr "p-7"); ("title", VStr "hello");
           ("permission", VInt 2); ("author_id", VInt 1)];
   mk_row [("id", VInt 8); ("reference_id", VStr "p-8"); ("title", VStr "again");
           ("permission", VInt 2); ("author_id", VInt 99)]].

Definition store : gmap string (list row) :=
  list_to_map
    [("user_account", users); ("usergroup", groups); ("world", worlds);
     ("action", actions); ("post", posts); (USER_GROUP_JOIN_TABLE, [])].

Definition join_model : TableModel :=
  table_model USER_GROUP_JOIN_TABLE
    [plain "id" "id"; plain "reference_id" "alias"; plain "permission" "value";
     fk_self USER_ACCOUNT_ID_COLUMN "user_account"; fk_self "usergroup_id" "usergroup"]
    [].

Definition cruds : gmap string TableModel :=
  list_to_map
    [("user_account", user_model); ("usergroup", usergroup_model);
     ("world", world_model); ("action", action_model); ("post", post_model);
     (USER_GROUP_JOIN_TABLE, join_model)].

Definition dr : DbResource := mkDbResource store cruds post_model "post" ∅.

(** A scanned row whose foreign key is a [float64]. *)
Definition float_key_row : row :=
  mk_row [("id", VInt 9); ("reference_id", VStr "p-9"); ("author_id", VFloat 3 (-1))].

(** A decoder that reads the text of a list with one empty descriptor. *)
Definition ext_json : Externals := {|
  GetTime := fun _ => None;
  GetDateTime := fun _ => None;
  json_Unmarshal := fun s => if String.eqb s "[{}]" then Some [∅] else None;
  ReadFile := fun _ => None;
  EncodeToString := fun s => s
|}.

Definition file_column : gmap string ColumnInfo :=
  list_to_map
    [("attachment",
      mkColumnInfo "attachment" "file" true (mkForeignKeyData "cloud_store" "store" "files"))].

Definition attachment_row : row :=
  mk_row [("id", VInt 9); ("attachment", VStr "[{}]")].

(** Rows as [GetRowPermission] receives them. *)
Definition row_without_reference_id : row :=
  mk_row [("__type", VStr "post"); ("id", VInt 7); ("title", VStr "hello")].

Definition row_of_unknown_object : row :=
  mk_row [("__type", VStr "post"); ("reference_id", VStr "p-404")].

Definition usergroup_row : row :=
  mk_row [("__type", VStr "usergroup"); ("id", VInt 2); ("reference_id", VStr "g-2");
          ("name", VStr "administrators"); ("permission", VInt 34)].

Definition post_row (permission : value) : row :=
  mk_row [("__type", VStr "post"); ("id", VInt 7); ("reference_id", VStr "p-7");
          (USER_ACCOUNT_ID_COLUMN, VStr "u-1"); ("permission", permission)].

End sample.

(** * Properties *)

(** ** Strings *)

Lemma length_substring_0 (n : nat) (s : string) :
  String.length (substring 0 n s) = Nat.min n (String.length s).
Proof.
  revert n; induction s as [|c s IH]; intros [|n]; simpl; auto.
Qed.

Lemma length_rev_app (s1 s2 : string) :
  String.length (String.rev_app s1 s2) = (String.length s1 + String.length s2)%nat.
Proof.
  revert s2; induction s1 as [|c s1 IH]; intros s2; simpl; [reflexivity|].
  rewrite IH; simpl; lia.
Qed.

Lemma length_rev (s : string) : String.length (String.rev s) = String.length s.
Proof. unfold String.rev; rewrite length_rev_app; simpl; lia. Qed.

Lemma strip_prefix_length (p s s' : string) :
  strings.strip_prefix p s = Some s' -> (String.length s' <= String.length s)%nat.
Proof.
  revert s; induction p as [|a p IH]; intros [|b s]; simpl; intros Hs;
    try discriminate; try (injection Hs as <-; simpl; lia).
  destruct (Ascii.eqb a b); [|discriminate].
  apply IH in Hs; lia.
Qed.

Lemma strip_any_length (ps : list string) (s s' : string) :
  strings.strip_any ps s = Some s' -> (String.length s' <= String.length s)%nat.
Proof.
  induction ps as [|p ps IH]; simpl; [discriminate|].
  destruct (strings.strip_prefix p s) eqn:Hp; [|exact IH].
  intros [= <-]; eapply strip_prefix_length; eassumption.
Qed.

Lemma trim_left_length (runes : list string) (fuel : nat) (s : string) :
  (String.length (strings.trim_left runes fuel s) <= String.length s)%nat.
Proof.
  revert s; induction fuel as [|fuel IH]; intros s; simpl; [lia|].
  destruct (strings.strip_any runes s) eqn:Hs; [|lia].
  apply strip_any_length in Hs; specialize (IH s0); lia.
Qed.

Lemma TrimSpace_length (s : string) :
  (String.length (strings.TrimSpace s) <= String.length s)%nat.
Proof.
  unfold strings.TrimSpace, strings.TrimRightSpace, strings.TrimLeftSpace.
  rewrite length_rev.
  etransitivity; [apply trim_left_length|].
  rewrite length_rev; apply trim_left_length.
Qed.

(** C10. For a non-negative [limit], [trimToLimit str limit] returns a
    string [ret]: of length at most [limit] when [len(str) > limit];
    otherwise [str] with the surrounding white space removed.  Its length
    never exceeds [max(limit, len(str))], and is at most [limit] in every
    case. *)
Theorem trimToLimit_bound (str : string) (limit : Z) :
  0 <= limit ->
  exists ret : string,
    trimToLimit str limit = Ok ret
    /\ (limit < Z.of_nat (String.length str) -> Z.of_nat (String.length ret) <= limit)
    /\ (Z.of_nat (String.length str) <= limit -> ret = strings.TrimSpace str)
    /\ Z.of_nat (String.length ret) <= Z.max limit (Z.of_nat (String.length str))
    /\ Z.of_nat (String.length ret) <= limit.
Proof.
  intros Hlimit; unfold trimToLimit, slice_to.
  pose proof (TrimSpace_length str) as Htrim.
  destruct (limit <? Z.of_nat (String.length str)) eqn:Hlt.
  - apply Z.ltb_lt in Hlt.
    assert (Hguard : (limit <? 0) || (Z.of_nat (String.length str) <? limit) = false).
    { apply orb_false_iff; split; apply Z.ltb_ge; lia. }
    rewrite Hguard.
    eexists; split; [reflexivity|].
    rewrite length_substring_0.
    repeat split; intros; lia.
  - apply Z.ltb_ge in Hlt.
    eexists; split; [reflexivity|].
    repeat split; intros; lia.
Qed.

Lemma trimToLimit_bound_witness :
  0 <= 3 /\
  exists ret : string,
    trimToLimit "  abcdef " 3 = Ok ret
    /\ (3 < Z.of_nat (String.length "  abcdef ") -> Z.of_nat (String.length ret) <= 3)
    /\ (Z.of_nat (String.length "  abcdef ") <= 3 -> ret = strings.TrimSpace "  abcdef ")
    /\ Z.of_nat (String.length ret) <= Z.max 3 (Z.of_nat (String.length "  abcdef "))
    /\ Z.of_nat (String.length ret) <= 3.
Proof.
  split; [lia|]. apply (trimToLimit_bound "  abcdef " 3). lia.
Defined.

(** ** The store *)

Lemma value_eqb_eq (a b : value) : value_eqb a b = true -> a = b.
Proof.
  destruct a, b; simpl; try discriminate; try reflexivity.
  - intros ->%Z.eqb_eq; reflexivity.
  - intros [->%Z.eqb_eq ->%Z.eqb_eq]%andb_true_iff; reflexivity.
  - intros ->%String.eqb_eq; reflexivity.
  - intros ->%Bool.eqb_prop; reflexivity.
  - intros ->%Z.eqb_eq; reflexivity.
Qed.

Lemma sql_eqb_eq (cell arg : value) : sql_eqb cell arg = true -> cell = arg.
Proof.
  unfold sql_eqb; intros [_ Heq]%andb_true_iff; apply value_eqb_eq, Heq.
Qed.

Lemma sql_eqb_VInt (z : Z) : sql_eqb (VInt z) (VInt z) = true.
Proof. unfold sql_eqb; simpl; apply Z.eqb_refl. Qed.

Lemma sql_eqb_VStr (s : string) : sql_eqb (VStr s) (VStr s) = true.
Proof. unfold sql_eqb; simpl; apply String.eqb_refl. Qed.

Lemma matches_single (c : string) (v : value) (r : row) :
  matches [(c, v)] r = sql_eqb (index r c) v.
Proof. unfold matches; simpl; apply andb_true_r. Qed.

Lemma head_filter_Some {A : Type} (P : A -> bool) (l : list A) (x : A) :
  head (List.filter P l) = Some x -> In x l /\ P x = true.
Proof.
  induction l as [|a l IH]; simpl; [discriminate|].
  destruct (P a) eqn:Ha; simpl.
  - intros [= <-]; auto.
  - intros Hx; destruct (IH Hx); auto.
Qed.

Lemma head_filter_In {A : Type} (P : A -> bool) (l : list A) (y : A) :
  In y l -> P y = true -> exists x, head (List.filter P l) = Some x.
Proof.
  induction l as [|a l IH]; simpl; [tauto|].
  intros [-> | Hy] HP.
  - rewrite HP; simpl; eauto.
  - destruct (P a); simpl; eauto.
Qed.


Lemma QueryRowx_Some (d : gmap string (list row)) (T c : string) (v : value) (r : row) :
  QueryRowx d T [(c, v)] = Some r ->
  exists rows, d !! T = Some rows /\ In r rows /\ index r c = v.
Proof.
  unfold QueryRowx, Queryx; intros Hq.
  destruct (d !! T) as [rows|] eqn:HT; simpl in Hq; [|discriminate].
  apply head_filter_Some in Hq as [Hin Hm].
  rewrite matches_single in Hm; apply sql_eqb_eq in Hm; eauto.
Qed.

Lemma QueryRowx_In (d : gmap string (list row)) (T c : string) (v : value)
    (rows : list row) (r : row) :
  d !! T = Some rows -> In r rows -> sql_eqb (index r c) v = true ->
  exists r', QueryRowx d T [(c, v)] = Some r'.
Proof.
  intros HT Hin Hm; unfold QueryRowx, Queryx; rewrite HT; simpl.
  eapply head_filter_In; [exact Hin|]. rewrite matches_single; exact Hm.
Qed.

Lemma distinct_inj {A : Type} (f : A -> value) (l : list A) (x y : A) :
  distinct (map f l) = true -> In x l -> In y l -> f x = f y ->
  negb (is_nil (f x)) = true -> value_eqb (f x) (f x) = true -> x = y.
Proof.
  induction l as [|a l IH]; simpl; [tauto|].
  intros [Hhd Htl]%andb_true_iff Hx Hy Hxy Hnn Hrefl.
  apply negb_true_iff in Hhd.
  assert (Hnot : forall z, In z l -> f a = f z -> value_eqb (f a) (f a) = true -> False).
  { intros z Hz Hfz Hr.
    assert (existsb (value_eqb (f a)) (map f l) = true); [|congruence].
    apply existsb_exists; exists (f z); split; [apply in_map, Hz|congruence]. }
  destruct Hx as [-> | Hx], Hy as [-> | Hy]; auto.
  - exfalso; eapply Hnot; eauto.
  - exfalso; eapply (Hnot x); eauto; congruence.
Qed.

(** ** Reference-id translation *)

Lemma keyed_table_cells (rows : list row) (r : row) :
  keyed_table rows = true -> In r rows ->
  exists i ref, index r "id" = VInt i /\ index r "reference_id" = VStr ref.
Proof.
  unfold keyed_table; intros [[Hty _]%andb_true_iff _]%andb_true_iff Hin.
  rewrite forallb_forall in Hty; apply Hty in Hin as [Hi Hs]%andb_true_iff.
  destruct (index r "id"); try discriminate.
  destruct (index r "reference_id"); try discriminate; eauto.
Qed.

Lemma keyed_table_id_inj (rows : list row) (x y : row) :
  keyed_table rows = true -> In x rows -> In y rows ->
  index x "id" = index y "id" -> x = y.
Proof.
  intros Hk Hx Hy Heq.
  destruct (keyed_table_cells rows x Hk Hx) as (i & ref & Hi & _).
  unfold keyed_table in Hk; apply andb_true_iff in Hk as [[_ Hd]%andb_true_iff _].
  apply (distinct_inj (fun r => index r "id") rows); auto; simpl; rewrite Hi; simpl;
    [reflexivity|apply Z.eqb_refl].
Qed.

Lemma keyed_table_ref_inj (rows : list row) (x y : row) :
  keyed_table rows = true -> In x rows -> In y rows ->
  index x "reference_id" = index y "reference_id" -> x = y.
Proof.
  intros Hk Hx Hy Heq.
  destruct (keyed_table_cells rows x Hk Hx) as (i & ref & _ & Href).
  unfold keyed_table in Hk; apply andb_true_iff in Hk as [_ Hd].
  apply (distinct_inj (fun r => index r "reference_id") rows); auto; simpl; rewrite Href;
    simpl; [reflexivity|apply String.eqb_refl].
Qed.

(** C5. In a table whose [id] is an integer key and whose reference ids
    are unique strings: for every internal id [i] of a row,
    [GetReferenceIdToId(T, GetIdToReferenceId(T, i)) == i], and for every
    reference id [ref] of a row,
    [GetIdToReferenceId(T, GetReferenceIdToId(T, ref)) == ref]; both
    lookups succeed. *)
Theorem reference_id_round_trip (dr : DbResource) (T : string) (rows : list row) :
  db dr !! T = Some rows ->
  keyed_table rows = true ->
  (forall i : Z,
     (exists r, In r rows /\ index r "id" = VInt i) ->
     exists ref, GetIdToReferenceId dr T i = Some ref
                 /\ GetReferenceIdToId dr T ref = Some i)
  /\ (forall ref : string,
       (exists r, In r rows /\ index r "reference_id" = VStr ref) ->
       exists i, GetReferenceIdToId dr T ref = Some i
                 /\ GetIdToReferenceId dr T i = Some ref).
Proof.
  intros HT Hk; split.
  - intros i (r0 & Hin0 & Hid0).
    destruct (QueryRowx_In (db dr) T "id" (VInt i) rows r0 HT Hin0) as [r Hq].
    { rewrite Hid0; apply sql_eqb_VInt. }
    pose proof Hq as Hq'.
    apply QueryRowx_Some in Hq' as (rows' & HT' & Hin & Hid).
    rewrite HT in HT'; injection HT' as <-.
    destruct (keyed_table_cells rows r Hk Hin) as (i' & ref & _ & Href).
    exists ref; split.
    { unfold GetIdToReferenceId; rewrite Hq; simpl; rewrite Href; reflexivity. }
    destruct (QueryRowx_In (db dr) T "reference_id" (VStr ref) rows r HT Hin) as [r2 Hq2].
    { rewrite Href; apply sql_eqb_VStr. }
    pose proof Hq2 as Hq2'.
    apply QueryRowx_Some in Hq2' as (rows' & HT' & Hin2 & Href2).
    rewrite HT in HT'; injection HT' as <-.
    assert (r2 = r) as -> by (apply (keyed_table_ref_inj rows); auto; congruence).
    unfold GetReferenceIdToId; rewrite Hq2; simpl; rewrite Hid; reflexivity.
  - intros ref (r0 & Hin0 & Href0).
    destruct (QueryRowx_In (db dr) T "reference_id" (VStr ref) rows r0 HT Hin0) as [r Hq].
    { rewrite Href0; apply sql_eqb_VStr. }
    pose proof Hq as Hq'.
    apply QueryRowx_Some in Hq' as (rows' & HT' & Hin & Href).
    rewrite HT in HT'; injection HT' as <-.
    destruct (keyed_table_cells rows r Hk Hin) as (i & ref' & Hid & _).
    exists i; split.
    { unfold GetReferenceIdToId; rewrite Hq; simpl; rewrite Hid; reflexivity. }
    destruct (QueryRowx_In (db dr) T "id" (VInt i) rows r HT Hin) as [r2 Hq2].
    { rewrite Hid; apply sql_eqb_VInt. }
    pose proof Hq2 as Hq2'.
    apply QueryRowx_Some in Hq2' as (rows' & HT' & Hin2 & Hid2).
    rewrite HT in HT'; injection HT' as <-.
    assert (r2 = r) as -> by (apply (keyed_table_id_inj rows); auto; congruence).
    unfold GetIdToReferenceId; rewrite Hq2; simpl; rewrite Href; reflexivity.
Qed.

Lemma reference_id_round_trip_witness :
  db sample.dr !! "post" = Some sample.posts
  /\ keyed_table sample.posts = true
  /\ ((forall i : Z,
        (exists r, In r sample.posts /\ index r "id" = VInt i) ->
        exists ref, GetIdToReferenceId sample.dr "post" i = Some ref
                    /\ GetReferenceIdToId sample.dr "post" ref = Some i)
      /\ (forall ref : string,
           (exists r, In r sample.posts /\ index r "reference_id" = VStr ref) ->
           exists i, GetReferenceIdToId sample.dr "post" ref = Some i
                     /\ GetIdToReferenceId sample.dr "post" i = Some ref)).
Proof.
  split; [vm_compute; reflexivity|].
  split; [vm_compute; reflexivity|].
  apply (reference_id_round_trip sample.dr "post" sample.posts); vm_compute; reflexivity.
Defined.

Example GetIdToReferenceId_post_7 :
  GetIdToReferenceId sample.dr "post" 7 = Some "p-7"
  /\ GetReferenceIdToId sample.dr "post" "p-7" = Some 7
  /\ GetIdToReferenceId sample.dr "post" 9 = None.
Proof. vm_compute; auto. Qed.

(** ** Permission instances *)

Section PermissionProperties.

Context `{Externals} `{auth.Bits}.

Lemma QueryRowx_no_row (d : gmap string (list row)) (T c : string) (v : value) :
  (forall rows r, d !! T = Some rows -> In r rows -> index r c <> v) ->
  QueryRowx d T [(c, v)] = None.
Proof.
  intros Hno; destruct (QueryRowx d T [(c, v)]) as [r|] eqn:Hq; [|reflexivity].
  apply QueryRowx_Some in Hq as (rows & HT & Hin & Hc).
  exfalso; eapply Hno; eauto.
Qed.

(** C9. When no row of [objectType] has [colName = colValue] (or the table
    is unknown), [GetObjectPermissionByWhereClause] returns the zero
    [PermissionInstance]: empty owner, no group permissions and the zero
    bit mask; it does not panic. *)
Theorem GetObjectPermissionByWhereClause_no_row (dr : DbResource)
    (objectType colName colValue : string) :
  (forall rows r, db dr !! objectType = Some rows -> In r rows ->
                  index r colName <> VStr colValue) ->
  exists perm : PermissionInstance,
    GetObjectPermissionByWhereClause dr objectType colName colValue = Ok perm
    /\ UserId perm = "" /\ UserGroupId perm = [] /\ Permission perm = 0.
Proof.
  intros Hno; unfold GetObjectPermissionByWhereClause.
  rewrite (QueryRowx_no_row _ _ _ _ Hno).
  exists zero_PermissionInstance; repeat split.
Qed.

Lemma bind_Ok_inv {A B : Type} (x : outcome A) (f : A -> outcome B) (b : B) :
  x ≫= f = Ok b -> exists a, x = Ok a /\ f a = Ok b.
Proof. destruct x as [a|]; simpl; [eauto|discriminate]. Qed.

(** C1. [IsUserActionAllowed] returns true exactly when the permission
    instance of the type and the permission instance of the action are both
    found and [CanExecute] holds of each; and whenever the two instances
    are found and either check is false, it returns false. *)
Theorem IsUserActionAllowed_both (dr : DbResource) (userReferenceId : string)
    (userGroups : list auth.GroupPermission) (typeName actionName : string) :
  (IsUserActionAllowed dr userReferenceId userGroups typeName actionName = Ok true
   <-> exists permission actionPermission,
         GetObjectPermissionByWhereClause dr "world" "table_name" typeName = Ok permission
         /\ GetObjectPermissionByWhereClause dr "action" "action_name" actionName
            = Ok actionPermission
         /\ CanExecute permission userReferenceId userGroups = true
         /\ CanExecute actionPermission userReferenceId userGroups = true)
  /\ (forall permission actionPermission,
        GetObjectPermissionByWhereClause dr "world" "table_name" typeName = Ok permission ->
        GetObjectPermissionByWhereClause dr "action" "action_name" actionName
          = Ok actionPermission ->
        CanExecute permission userReferenceId userGroups = false
        \/ CanExecute actionPermission userReferenceId userGroups = false ->
        IsUserActionAllowed dr userReferenceId userGroups typeName actionName = Ok false).
Proof.
  unfold IsUserActionAllowed; split; [split|].
  - intros Hres.
    apply bind_Ok_inv in Hres as (permission & Hp & Hres).
    apply bind_Ok_inv in Hres as (actionPermission & Ha & Hres).
    injection Hres as Hres; apply andb_true_iff in Hres as [H1 H2].
    exists permission, actionPermission; auto.
  - intros (permission & actionPermission & Hp & Ha & H1 & H2).
    rewrite Hp; simpl; rewrite Ha; simpl; rewrite H1, H2; reflexivity.
  - intros permission actionPermission Hp Ha Hfalse.
    rewrite Hp; simpl; rewrite Ha; simpl.
    destruct Hfalse as [-> | ->]; [reflexivity|].
    rewrite andb_false_r; reflexivity.
Qed.

End PermissionProperties.

Lemma GetObjectPermissionByWhereClause_no_row_witness :
  (forall rows r, db sample.dr !! "world" = Some rows -> In r rows ->
                  index r "table_name" <> VStr "comment")
  /\ exists perm : PermissionInstance,
       GetObjectPermissionByWhereClause sample.dr "world" "table_name" "comment"
         = Ok perm
       /\ UserId perm = "" /\ UserGroupId perm = [] /\ Permission perm = 0.
Proof.
  assert (Hno : forall rows r, db sample.dr !! "world" = Some rows -> In r rows ->
                               index r "table_name" <> VStr "comment").
  { intros rows r Hdb Hin.
    assert (Hw : db sample.dr !! "world" = Some sample.worlds) by (vm_compute; reflexivity).
    rewrite Hw in Hdb; injection Hdb as <-.
    destruct Hin as [<- | [<- | []]]; vm_compute; discriminate. }
  split; [exact Hno|].
  apply (GetObjectPermissionByWhereClause_no_row sample.dr
           "world" "table_name" "comment" Hno).
Defined.

Example IsUserActionAllowed_sample :
  @IsUserActionAllowed sample.bits sample.dr "u-1" [] "post" "publish" = Ok true
  /\ @IsUserActionAllowed sample.bits sample.dr "u-2" [] "post" "publish" = Ok false
  /\ @IsUserActionAllowed sample.bits sample.dr "u-1" [] "post_audit" "publish"
     = Ok false
  /\ @IsUserActionAllowed sample.bits sample.dr "u-2" [] "post" "signin" = Ok true.
Proof. vm_compute; auto. Qed.

(** ** Row permissions *)

Section RowPermissionProperties.

Context `{Externals}.

Lemma assert_string_not_string (v : value) : is_string v = false -> assert_string v = Panic.
Proof. destruct v; simpl; try reflexivity; discriminate. Qed.

(** C4 (evaluation of the code where it departs from the claim).  A row
    without the [reference_id] key, whose [id] is not a string (it is the
    [int64] key, or absent), makes [GetRowPermission] panic as soon as the
    owner column or the permission column is missing, and always for a
    [usergroup] row: the fallback value [row["id"]] is asserted to be a
    string. *)
Theorem GetRowPermission_panics_without_reference_id (dr : DbResource) (r : row)
    (rowType : string) :
  r !! "reference_id" = None ->
  is_string (index r "id") = false ->
  index r "__type" = VStr rowType ->
  rowType = "usergroup"
  \/ is_nil (index r USER_ACCOUNT_ID_COLUMN) = true
  \/ is_nil (index r "permission") = true ->
  GetRowPermission dr r = Panic.
Proof.
  intros Href Hid Htype Hmissing.
  apply assert_string_not_string in Hid.
  unfold GetRowPermission; rewrite Href, Htype, Hid; simpl.
  destruct (String.eqb rowType "usergroup") eqn:Hug; simpl.
  - apply String.eqb_eq in Hug as ->.
    change (strings.Index "usergroup" "_has_" =? -1) with true; simpl.
    destruct (crud_model dr "usergroup") as [m|]; simpl; [|reflexivity].
    destruct (HasMany m "usergroup"); reflexivity.
  - destruct Hmissing as [-> | [Howner | Hperm]]; [discriminate| |].
    + rewrite Howner; reflexivity.
    + destruct (is_nil (index r USER_ACCOUNT_ID_COLUMN)); simpl; [reflexivity|].
      destruct (strings.Index rowType "_has_" =? -1); simpl.
      * destruct (crud_model dr rowType) as [m|]; simpl; [|reflexivity].
        destruct (HasMany m "usergroup"); simpl; [reflexivity|].
        rewrite Hperm; reflexivity.
      * rewrite Hperm; reflexivity.
Qed.

End RowPermissionProperties.

Lemma GetRowPermission_panics_without_reference_id_witness :
  sample.row_without_reference_id !! "reference_id" = None
  /\ is_string (index sample.row_without_reference_id "id") = false
  /\ index sample.row_without_reference_id "__type" = VStr "post"
  /\ ("post" = "usergroup"
      \/ is_nil (index sample.row_without_reference_id USER_ACCOUNT_ID_COLUMN) = true
      \/ is_nil (index sample.row_without_reference_id "permission") = true)
  /\ @GetRowPermission sample.ext sample.dr sample.row_without_reference_id = Panic.
Proof.
  assert (Hmissing : "post" = "usergroup"
      \/ is_nil (index sample.row_without_reference_id USER_ACCOUNT_ID_COLUMN) = true
      \/ is_nil (index sample.row_without_reference_id "permission") = true).
  { right; left; vm_compute; reflexivity. }
  split; [vm_compute; reflexivity|].
  split; [vm_compute; reflexivity|].
  split; [vm_compute; reflexivity|].
  split; [exact Hmissing|].
  apply (@GetRowPermission_panics_without_reference_id sample.ext sample.dr
           sample.row_without_reference_id "post");
    [vm_compute; reflexivity .. | exact Hmissing].
Defined.

(** With a string reference id the missing owner and permission columns
    do degrade to the closed instance. *)
Example GetRowPermission_unknown_object :
  @GetRowPermission sample.ext sample.dr sample.row_of_unknown_object
  = Ok (mkPermissionInstance "" [] 0).
Proof. vm_compute; reflexivity. Qed.

(** The three encodings of the permission column agree, and a string that
    is not a decimal integer closes the row. *)
Example GetRowPermission_encodings :
  @GetRowPermission sample.ext sample.dr (sample.post_row (VInt 34))
  = Ok (mkPermissionInstance "u-1" [] 34)
  /\ @GetRowPermission sample.ext sample.dr (sample.post_row (VFloat 17 1))
     = Ok (mkPermissionInstance "u-1" [] 34)
  /\ @GetRowPermission sample.ext sample.dr (sample.post_row (VStr "34"))
     = Ok (mkPermissionInstance "u-1" [] 34)
  /\ @GetRowPermission sample.ext sample.dr (sample.post_row (VStr "3 4"))
     = Ok (mkPermissionInstance "u-1" [] 0).
Proof. vm_compute; auto. Qed.

(** C3 (evaluation of the code where it departs from the claim).  A decimal
    string beyond the [int64] range fails to parse, and the row is given the
    bound that [strconv.ParseInt] returns with its range error: every bit
    of the mask is set, the guest execute bit among them. *)
Theorem GetRowPermission_range_error :
  (strconv.ParseInt "9223372036854775808").2 = false
  /\ @GetRowPermission sample.ext sample.dr (sample.post_row (VStr "9223372036854775808"))
     = Ok (mkPermissionInstance "u-1" [] 9223372036854775807)
  /\ @CanExecute sample.bits (mkPermissionInstance "u-1" [] 9223372036854775807) "" [] = true.
Proof. vm_compute; auto. Qed.

Section UsergroupProperties.

Context `{Externals}.

(** C8. For the object type ["usergroup"], [GetObjectGroupsByObjectId]
    returns exactly one membership whose group, object and relation
    reference ids are the reference id of the object, with the default
    permission of the usergroup model; and so does [GetRowPermission] on a
    usergroup row that carries its reference id (the usergroup model having
    no has-many relation to itself): whenever it returns, and it returns
    when the permission column is an integer. *)
Theorem usergroup_self_membership (dr : DbResource) (m : TableModel) (refId : string) :
  Cruds dr !! "usergroup" = Some m ->
  (forall objectId : Z,
     GetIdToReferenceId dr "usergroup" objectId = Some refId ->
     GetObjectGroupsByObjectId dr "usergroup" objectId
     = Ok [auth.mkGroupPermission refId refId refId (GetDefaultPermission m)])
  /\ (forall r : row,
        index r "__type" = VStr "usergroup" ->
        r !! "reference_id" = Some (VStr refId) ->
        HasMany m "usergroup" = false ->
        (forall perm, GetRowPermission dr r = Ok perm ->
                      UserGroupId perm
                      = [auth.mkGroupPermission refId refId refId (GetDefaultPermission m)])
        /\ (forall p : Z, index r "permission" = VInt p ->
                          GetRowPermission dr r
                          = Ok (mkPermissionInstance ""
                                  [auth.mkGroupPermission refId refId refId
                                     (GetDefaultPermission m)] p))).
Proof.
  intros Hcrud; split.
  - intros objectId Href; unfold GetObjectGroupsByObjectId.
    rewrite Href; simpl. unfold crud_model; rewrite Hcrud; reflexivity.
  - intros r Htype Href Hmany.
    assert (Hidx : index r "reference_id" = VStr refId) by (unfold index; rewrite Href; auto).
    assert (Hshape :
              GetRowPermission dr r = Panic \/
              exists p, GetRowPermission dr r
                        = Ok (mkPermissionInstance ""
                                [auth.mkGroupPermission refId refId refId
                                   (GetDefaultPermission m)] p)).
    { unfold GetRowPermission; rewrite Href, Htype; simpl.
      change (strings.Index "usergroup" "_has_" =? -1) with true; simpl.
      unfold crud_model; rewrite Hcrud; simpl; rewrite Hmany, Hidx; simpl.
      match goal with
      | |- context [mbind _ ?x] => destruct x as [p|]; simpl; eauto
      end. }
    split.
    + intros perm Hperm.
      destruct Hshape as [Hp | [p Hp]]; rewrite Hp in Hperm;
        [discriminate|].
      injection Hperm as <-; reflexivity.
    + intros p Hp. unfold GetRowPermission; rewrite Href, Htype; simpl.
      change (strings.Index "usergroup" "_has_" =? -1) with true; simpl.
      unfold crud_model; rewrite Hcrud; simpl; rewrite Hmany, Hidx, Hp; reflexivity.
Qed.

End UsergroupProperties.

Lemma usergroup_self_membership_witness :
  Cruds sample.dr !! "usergroup" = Some sample.usergroup_model
  /\ GetIdToReferenceId sample.dr "usergroup" 2 = Some "g-2"
  /\ GetObjectGroupsByObjectId sample.dr "usergroup" 2
     = Ok [auth.mkGroupPermission "g-2" "g-2" "g-2"
             (GetDefaultPermission sample.usergroup_model)]
  /\ index sample.usergroup_row "__type" = VStr "usergroup"
  /\ sample.usergroup_row !! "reference_id" = Some (VStr "g-2")
  /\ HasMany sample.usergroup_model "usergroup" = false
  /\ index sample.usergroup_row "permission" = VInt 34
  /\ @GetRowPermission sample.ext sample.dr sample.usergroup_row
     = Ok (mkPermissionInstance ""
             [auth.mkGroupPermission "g-2" "g-2" "g-2"
                (GetDefaultPermission sample.usergroup_model)] 34).
Proof.
  assert (Hcrud : Cruds sample.dr !! "usergroup" = Some sample.usergroup_model)
    by (vm_compute; reflexivity).
  destruct (@usergroup_self_membership sample.ext sample.dr sample.usergroup_model
              "g-2" Hcrud) as [Hgroups Hrow].
  split; [exact Hcrud|].
  split; [vm_compute; reflexivity|].
  split; [apply Hgroups; vm_compute; reflexivity|].
  split; [vm_compute; reflexivity|].
  split; [vm_compute; reflexivity|].
  split; [vm_compute; reflexivity|].
  split; [vm_compute; reflexivity|].
  apply Hrow; vm_compute; reflexivity.
Defined.

(** ** Relation resolution *)

Lemma mapM_length {A B : Type} (f : A -> outcome B) (l : list A) (l' : list B) :
  mapM f l = Ok l' -> length l' = length l.
Proof.
  revert l'; induction l as [|a l IH]; simpl; intros l' Hm.
  - injection Hm as <-; reflexivity.
  - destruct (f a) as [b|]; simpl in Hm; [|discriminate].
    destruct (mapM f l) as [bs|]; simpl in Hm; [|discriminate].
    injection Hm as <-; simpl; f_equal; apply IH; reflexivity.
Qed.

Lemma mapM_total {A B : Type} (f : A -> outcome B) (l : list A) :
  (forall a, In a l -> exists b, f a = Ok b) -> exists l', mapM f l = Ok l'.
Proof.
  induction l as [|a l IH]; simpl; intros Hall; [eauto|].
  destruct (Hall a) as [b ->]; auto; simpl.
  destruct IH as [bs ->]; auto; simpl; eauto.
Qed.

Lemma foldM_total {A S : Type} (f : S -> A -> outcome S) (l : list A) (s : S) :
  (forall s a, In a l -> exists s', f s a = Ok s') -> exists s', foldM f l s = Ok s'.
Proof.
  revert s; induction l as [|a l IH]; simpl; intros s Hall; [eauto|].
  destruct (Hall s a) as [s' ->]; auto; simpl.
  apply IH; auto.
Qed.

Section ResolverProperties.

Context `{Externals}.

Lemma GetFileFromLocalCloudStore_total (dr : DbResource) (tableName columnName : string)
    (filesList : list row) :
  (forall file, In file filesList -> is_string (index file "src") = true) ->
  exists resp, GetFileFromLocalCloudStore dr tableName columnName filesList = Ok resp.
Proof.
  intros Hsrc; unfold GetFileFromLocalCloudStore.
  destruct (AssetFolderCache dr !! tableName ≫= _) as [assetFolder|]; [|eauto].
  match goal with
  | |- context [foldM ?f filesList []] =>
      destruct (foldM_total f filesList []) as [resp ->]; [|simpl; eauto]
  end.
  intros resp file Hin; apply Hsrc in Hin.
  destruct (index file "src"); try discriminate; simpl.
  destruct (ReadFile _); eauto.
Qed.

Lemma mapM_src_total (files : list row) :
  forallb (fun file => is_string (index file "name")) files = true ->
  exists files',
    mapM (fun file => name ← assert_string (index file "name");
                      Ok (<["src" := VStr name]> file)) files = Ok files'
    /\ forall file, In file files' -> is_string (index file "src") = true.
Proof.
  induction files as [|file files IH]; simpl; intros Hall.
  - exists []; split; [reflexivity|intros ? []].
  - apply andb_true_iff in Hall as [Hname Hall].
    destruct (index file "name") eqn:Hn; try discriminate; simpl.
    destruct (IH Hall) as (files' & -> & Hsrc); simpl.
    eexists; split; [reflexivity|].
    intros f [<- | Hf]; [|auto].
    unfold index; rewrite lookup_insert_eq; reflexivity.
Qed.

(** One iteration over a readable cell returns, provided the object of a
    translated id can be fetched when relations are included. *)
Lemma resolve_column_total (dr : DbResource)
    (getIdToObject : string -> Z -> outcome (option row))
    (columnMap : gmap string ColumnInfo) (includedRelationMap : option (gmap string bool))
    (st : row * list row) (kv : string * value) :
  entry_ok columnMap kv = true ->
  (includedRelationMap = None
   \/ forall ns id refId, GetIdToReferenceId dr ns id = Some refId ->
                          exists obj, getIdToObject ns id = Ok (Some obj)) ->
  exists st', resolve_column dr getIdToObject columnMap includedRelationMap ∅ st kv = Ok st'.
Proof.
  destruct st as [r localInclude], kv as [key val]; unfold entry_ok, resolve_column; simpl.
  destruct (columnMap !! key) as [columnInfo|]; [|eauto].
  unfold cell_ok; intros Hok Hget.
  destruct (IsForeignKey columnInfo); simpl in *; [|eauto].
  destruct (is_blank val); [eauto|].
  destruct (String.eqb (DataSource (ForeignKey columnInfo)) "self").
  - assert (Hid : exists i, match val with
                            | VInt z => Ok z
                            | _ => stringIntId ← assert_string val;
                                   Ok (strconv.ParseInt stringIntId).1
                            end = Ok i).
    { destruct val; try discriminate; simpl; eauto. }
    destruct Hid as [i ->]; simpl.
    rewrite lookup_empty.
    destruct (GetIdToReferenceId dr _ i) as [refId|] eqn:Href; [|eauto].
    destruct (is_included includedRelationMap _) eqn:Hinc; [|eauto].
    destruct Hget as [-> | Hget]; [discriminate|].
    destruct (Hget _ _ _ Href) as [obj ->]; simpl; eauto.
  - destruct (String.eqb (DataSource (ForeignKey columnInfo)) "cloud_store"); [|eauto].
    destruct val; try discriminate; simpl.
    destruct (json_Unmarshal s) as [files|]; [|eauto].
    destruct (mapM_src_total files Hok) as (files' & -> & Hsrc); simpl.
    destruct (is_included includedRelationMap _); [|eauto].
    destruct (GetFileFromLocalCloudStore_total dr (TableName dr) (ColumnName columnInfo)
                files' Hsrc) as [resp ->]; simpl; eauto.
Qed.

Lemma resolve_row_total (dr : DbResource)
    (getIdToObject : string -> Z -> outcome (option row))
    (columnMap : gmap string ColumnInfo) (includedRelationMap : option (gmap string bool))
    (r : row) :
  forallb (entry_ok columnMap) (map_to_list r) = true ->
  (includedRelationMap = None
   \/ forall ns id refId, GetIdToReferenceId dr ns id = Some refId ->
                          exists obj, getIdToObject ns id = Ok (Some obj)) ->
  exists st', resolve_row dr getIdToObject columnMap includedRelationMap ∅ r = Ok st'.
Proof.
  intros Hok Hget; unfold resolve_row.
  apply foldM_total; intros st kv Hin.
  apply resolve_column_total; [|exact Hget].
  rewrite forallb_forall in Hok; auto.
Qed.

(** Under a nil include map the resolver never calls [GetIdToObject]. *)
Lemma ResultToArrayOfMapWith_nil_include (dr : DbResource)
    (g g' : string -> Z -> outcome (option row)) (rows : list row)
    (columnMap : gmap string ColumnInfo) :
  ResultToArrayOfMapWith dr g rows columnMap None
  = ResultToArrayOfMapWith dr g' rows columnMap None.
Proof.
  unfold ResultToArrayOfMapWith.
  assert (Hstep : forall st kv, resolve_column dr g columnMap None ∅ st kv
                                = resolve_column dr g' columnMap None ∅ st kv).
  { intros [r localInclude] [key val]; unfold resolve_column; simpl; reflexivity. }
  assert (Hfold : forall l st, foldM (resolve_column dr g columnMap None ∅) l st
                               = foldM (resolve_column dr g' columnMap None ∅) l st).
  { induction l as [|kv l IH]; intros st; simpl; [reflexivity|].
    rewrite Hstep; destruct (resolve_column dr g' columnMap None ∅ st kv); simpl; auto. }
  assert (Hmap : forall l, mapM (resolve_row dr g columnMap None ∅) l
                           = mapM (resolve_row dr g' columnMap None ∅) l).
  { induction l as [|r l IH]; simpl; [reflexivity|].
    assert (Hrow : resolve_row dr g columnMap None ∅ r = resolve_row dr g' columnMap None ∅ r)
      by apply Hfold.
    rewrite Hrow, IH; reflexivity. }
  rewrite Hmap; reflexivity.
Qed.

Lemma ResultToArrayOfMapWith_length (dr : DbResource)
    (getIdToObject : string -> Z -> outcome (option row)) (rows : list row)
    (columnMap : gmap string ColumnInfo) (includedRelationMap : option (gmap string bool))
    (res : list row * list (list row)) :
  ResultToArrayOfMapWith dr getIdToObject rows columnMap includedRelationMap = Ok res ->
  length res.1 = length rows /\ length res.2 = length rows.
Proof.
  unfold ResultToArrayOfMapWith; intros Hres.
  apply bind_Ok_inv in Hres as (resolved & Hm & Hres); injection Hres as <-.
  apply mapM_length in Hm; unfold RowsToMap in Hm; simpl.
  rewrite !length_map in *; auto.
Qed.

Lemma ResultToArrayOfMapWith_total (dr : DbResource)
    (getIdToObject : string -> Z -> outcome (option row)) (rows : list row)
    (columnMap : gmap string ColumnInfo) (includedRelationMap : option (gmap string bool)) :
  forallb (row_ok columnMap (GetName (model dr))) rows = true ->
  (includedRelationMap = None
   \/ forall ns id refId, GetIdToReferenceId dr ns id = Some refId ->
                          exists obj, getIdToObject ns id = Ok (Some obj)) ->
  exists res, ResultToArrayOfMapWith dr getIdToObject rows columnMap includedRelationMap
              = Ok res.
Proof.
  intros Hok Hget; unfold ResultToArrayOfMapWith.
  match goal with
  | |- context [mapM ?f ?l] => destruct (mapM_total f l) as [resolved ->]; [|simpl; eauto]
  end.
  intros r Hin; unfold RowsToMap in Hin; apply in_map_iff in Hin as (r0 & <- & Hin0).
  apply resolve_row_total; [|exact Hget].
  rewrite forallb_forall in Hok; apply Hok in Hin0; exact Hin0.
Qed.

End ResolverProperties.

Section BatchProperties.

Context `{Externals}.

Lemma store_ok_table (dr : DbResource) (T : string) (rows : list row) :
  store_ok dr = true -> db dr !! T = Some rows ->
  exists m, Cruds dr !! T = Some m
            /\ forallb (row_ok (GetColumnMap m) (GetName (model dr))) rows = true.
Proof.
  unfold store_ok; intros Hok HT.
  rewrite forallb_forall in Hok.
  specialize (Hok (T, rows)); simpl in Hok.
  assert (Hin : In (T, rows) (map_to_list (db dr)))
    by apply list_elem_of_In, elem_of_map_to_list, HT.
  destruct (Cruds dr !! T) as [m|]; [eauto|].
  assert (false = true); [auto|discriminate].
Qed.

Lemma forallb_filter {A : Type} (P Q : A -> bool) (l : list A) :
  forallb P l = true -> forallb P (List.filter Q l) = true.
Proof.
  rewrite !forallb_forall; intros Hall x [Hx _]%filter_In; auto.
Qed.

(** Over a readable store, the object of every id that translates can be
    fetched. *)
Lemma GetIdToObject_total (dr : DbResource) (ns : string) (id : Z) (refId : string) :
  store_ok dr = true ->
  GetIdToReferenceId dr ns id = Some refId ->
  exists obj, GetIdToObject dr ns id = Ok (Some obj).
Proof.
  intros Hok Href; unfold GetIdToReferenceId in Href.
  destruct (QueryRowx (db dr) ns [("id", VInt id)]) as [r|] eqn:Hq; [|discriminate].
  unfold QueryRowx, Queryx in Hq; unfold GetIdToObject, Queryx.
  destruct (db dr !! ns) as [rows|] eqn:HT; simpl in *; [|discriminate].
  destruct (store_ok_table dr ns rows Hok HT) as (m & Hm & Hrows).
  unfold crud_model; rewrite Hm; simpl.
  destruct (ResultToArrayOfMapWith_total dr (fun _ _ => Panic)
              (List.filter (matches [("id", VInt id)]) rows) (GetColumnMap m) None)
    as [res Hres]; [apply forallb_filter, Hrows|auto|].
  rewrite Hres; simpl.
  apply ResultToArrayOfMapWith_length in Hres as [Hlen _].
  destruct (List.filter (matches [("id", VInt id)]) rows); [discriminate|].
  destruct res.1; [discriminate|simpl; eauto].
Qed.

(** Over a readable store and batch the resolver returns, with as many
    rows and include lists as it was given rows. *)
Lemma ResultToArrayOfMap_total (dr : DbResource) (rows : list row)
    (columnMap : gmap string ColumnInfo) (includedRelationMap : option (gmap string bool)) :
  store_ok dr = true ->
  forallb (row_ok columnMap (GetName (model dr))) rows = true ->
  exists res,
    ResultToArrayOfMap dr rows columnMap includedRelationMap = Ok res
    /\ length res.1 = length rows
    /\ length res.2 = length rows.
Proof.
  intros Hstore Hrows; unfold ResultToArrayOfMap.
  destruct (ResultToArrayOfMapWith_total dr (GetIdToObject dr) rows columnMap
              includedRelationMap Hrows) as [res Hres].
  { right; intros ns id refId Href; eapply GetIdToObject_total; eauto. }
  exists res; split; [exact Hres|].
  apply ResultToArrayOfMapWith_length in Hres; exact Hres.
Qed.

(** C2 (as amended). Over a store and a batch whose foreign-key cells have
    the dynamic types the resolver reads, [ResultToArrayOfMap] returns
    exactly as many rows as it is given and one include list per row,
    whichever columns fail to resolve (an id without a row, a text that
    does not decode, an unknown data source, an unreadable file). *)
Theorem ResultToArrayOfMap_row_count (dr : DbResource) (rows : list row)
    (columnMap : gmap string ColumnInfo) (includedRelationMap : option (gmap string bool)) :
  store_ok dr = true ->
  forallb (row_ok columnMap (GetName (model dr))) rows = true ->
  exists responseArray includes,
    ResultToArrayOfMap dr rows columnMap includedRelationMap = Ok (responseArray, includes)
    /\ length responseArray = length rows
    /\ length includes = length rows.
Proof.
  intros Hstore Hrows.
  destruct (ResultToArrayOfMap_total dr rows columnMap includedRelationMap Hstore Hrows)
    as ([responseArray includes] & Hres & Hlen).
  exists responseArray, includes; auto.
Qed.

End BatchProperties.

Lemma ResultToArrayOfMap_row_count_witness :
  @store_ok sample.ext sample.dr = true
  /\ forallb (@row_ok sample.ext (GetColumnMap sample.post_model) (GetName (model sample.dr)))
             sample.posts = true
  /\ exists responseArray includes,
       @ResultToArrayOfMap sample.ext sample.dr sample.posts
         (GetColumnMap sample.post_model) (Some {["*" := true]})
       = Ok (responseArray, includes)
       /\ length responseArray = length sample.posts
       /\ length includes = length sample.posts.
Proof.
  split; [vm_compute; reflexivity|].
  split; [vm_compute; reflexivity|].
  apply (@ResultToArrayOfMap_row_count sample.ext sample.dr sample.posts
           (GetColumnMap sample.post_model) (Some {["*" := true]}));
    vm_compute; reflexivity.
Defined.

(** C2 (counterexample). A batch of one row whose ["self"] foreign key
    holds a [float64]: the assertion [val.(string)] panics and no row is
    returned. *)
Lemma ResultToArrayOfMap_float_key_panics :
  @ResultToArrayOfMap sample.ext sample.dr [sample.float_key_row]
    (GetColumnMap sample.post_model) None = Panic
  /\ ~ (exists responseArray includes,
         @ResultToArrayOfMap sample.ext sample.dr [sample.float_key_row]
           (GetColumnMap sample.post_model) None = Ok (responseArray, includes)
         /\ length responseArray = 1%nat /\ length includes = 1%nat).
Proof.
  assert (Hpanic : @ResultToArrayOfMap sample.ext sample.dr [sample.float_key_row]
                     (GetColumnMap sample.post_model) None = Panic)
    by (vm_compute; reflexivity).
  split; [exact Hpanic|].
  intros (responseArray & includes & Hres & _); rewrite Hpanic in Hres; discriminate.
Qed.

(** The same on a cloud-store cell whose descriptor has no ["name"]. *)
Example ResultToArrayOfMap_nameless_file_panics :
  @ResultToArrayOfMap sample.ext_json sample.dr [sample.attachment_row]
    sample.file_column None = Panic.
Proof. vm_compute; reflexivity. Qed.

(** A dangling foreign key keeps its row: post 8 points at user 99. *)
Example ResultToArrayOfMap_posts :
  exists p7 p8 u1,
    @ResultToArrayOfMap sample.ext sample.dr sample.posts
      (GetColumnMap sample.post_model) (Some {["*" := true]})
    = Ok ([p7; p8], [[u1]; []])
    /\ p7 !! "author_id" = Some (VStr "u-1")
    /\ p8 !! "author_id" = Some (VInt 99)
    /\ u1 !! "reference_id" = Some (VStr "u-1")
    /\ u1 !! "__type" = Some (VStr "user_account").
Proof. do 3 eexists; repeat split; reflexivity. Qed.

Section SelfKeyProperties.

Context `{Externals}.









End SelfKeyProperties.

Section MissingTarget.

Context `{Externals}.



End MissingTarget.


(** ** Administrator bootstrap *)





















Section BootstrapProperties.

Context `{auth.Bits}.







End BootstrapProperties.

Section AdministratorProperties.

Context `{auth.Bits}.







End AdministratorProperties.


(** A history on the sample dataset: two queries, a promotion, a second
    attempt and a last query. *)
Example run_sample :
  map snd (@run sample.bits sample.dr
             [call_CanBecomeAdmin; call_CanBecomeAdmin; call_BecomeAdmin 1 "m-1";
              call_BecomeAdmin 2 "m-2"; call_CanBecomeAdmin]).1
  = [true; true; true; false; false].
Proof. vm_compute; reflexivity. Qed.

(** [BecomeAdmin] also returns true for an id that names no user: the
    membership row it inserts has no user, and no administrator exists. *)
Example BecomeAdmin_unknown_user :
  (@BecomeAdmin sample.bits sample.dr 99 "m-99").1 = true
  /\ CanBecomeAdmin (@BecomeAdmin sample.bits sample.dr 99 "m-99").2 = true.
Proof. vm_compute; auto. Qed.

